(** * gitbot: a webhook receiver that acknowledges newly opened issues

    Shallow embedding of [gitbot/__main__.py].  The program is one aiohttp
    route that hands the request to gidgethub ([sansio.Event.from_http],
    [routing.Router]) and one registered handler, [issue_opened_event].

    gidgethub is a dependency, not part of this repository: the calls the
    program makes into it are embedded as the library defines them, and
    what lies below them (the HMAC digest, body decoding, [int], [str], the
    network) is a parameter of the development.

    - Python dictionaries whose order is irrelevant (the process environment,
      the request headers, JSON objects) are [gmap string _].
    - The router's registration tables keep Python's insertion order, so they
      are association lists.
    - Coroutines are computations in a small state-and-error monad whose
      state is the log of what the request did so far: handlers entered and
      calls made on the API client. *)

From Stdlib Require Import ZArith String List Bool.
From stdpp Require Import base option gmap strings list fin_maps.

Local Set Warnings "-register-all".
Local Set Default Proof Using "Type".
Local Open Scope string_scope.
Local Open Scope list_scope.
Local Open Scope Z_scope.

(** ** Values and exceptions *)

(** A decoded JSON document, as [json.loads] returns it. *)
Inductive json : Type :=
  | JNull
  | JBool (b : bool)
  | JNum (n : Z)
  | JStr (s : string)
  | JArr (xs : list json)
  | JObj (kvs : gmap string json).

(** The exceptions the request path can raise. *)
Inductive exn : Type :=
  | ValidationFailure (msg : string)
  | BadRequest (status : Z)
  | KeyError (key : string)
  | TypeError (msg : string)
  | ValueError (msg : string)
  | ClientError (msg : string).

Definition result (A : Type) : Type := exn + A.

(** [obj[key]] for a string key. *)
Definition getitem (obj : json) (key : string) : result json :=
  match obj with
  | JObj kvs =>
      match kvs !! key with
      | Some v => inr v
      | None => inl (KeyError key)
      end
  | JStr _ => inl (TypeError "string indices must be integers")
  | JArr _ => inl (TypeError "list indices must be integers or slices")
  | _ => inl (TypeError "object is not subscriptable")
  end.

Definition is_str (key : string) (v : json) : bool :=
  match v with
  | JStr s => bool_decide (s = key)
  | _ => false
  end.

(** [key in obj] for a string key: key membership in a dict, element
    membership in a list, substring test in a string. *)
Definition contains (obj : json) (key : string) : result bool :=
  match obj with
  | JObj kvs => inr (bool_decide (is_Some (kvs !! key)))
  | JArr xs => inr (existsb (is_str key) xs)
  | JStr s => inr (bool_decide (is_Some (index 0 key s)))
  | _ => inl (TypeError "argument is not iterable")
  end.

(** Request bodies and header values are byte strings. *)
Definition bytes : Type := string.

Definition is_ascii (s : string) : bool :=
  forallb (fun a => (Ascii.N_of_ascii a <? 128)%N) (list_ascii_of_string s).

(** ** The objects a request creates *)

(** [sansio.Event]: the decoded payload, the event kind and the delivery id. *)
Record Event : Type := mkEvent {
  data : json;
  event : string;
  delivery_id : string
}.

(** [gh_aiohttp.GitHubAPI(session, requester, oauth_token=...)]. *)
Record GitHubAPI : Type := mkGitHubAPI {
  requester : string;
  oauth_token : option string
}.

Record Response : Type := mkResponse { status : Z }.

(** What a request does that is visible outside [main]: a registered
    callback is entered, or a POST is made on the API client. *)
Inductive effect : Type :=
  | Entered (name : string)
  | Post (git : GitHubAPI) (url : json) (payload : json).

(** ** Coroutines: state (the log of effects) and errors *)

Definition M (A : Type) : Type := list effect -> result A * list effect.

Definition ret {A} (a : A) : M A := fun log => (inr a, log).

Definition raise {A} (e : exn) : M A := fun log => (inl e, log).

Definition bind {A B} (c : M A) (k : A -> M B) : M B :=
  fun log =>
    match c log with
    | (inr a, log') => k a log'
    | (inl e, log') => (inl e, log')
    end.

Definition tell (x : effect) : M unit := fun log => (inr tt, log ++ [x]).

Definition lift {A} (r : result A) : M A :=
  match r with
  | inr a => ret a
  | inl e => raise e
  end.

(** Running a coroutine from an empty log. *)
Definition run {A} (c : M A) : result A * list effect := c [].

Definition rbind {A B} (r : result A) (k : A -> result B) : result B :=
  match r with
  | inr a => k a
  | inl e => inl e
  end.

Declare Scope py_scope.
Delimit Scope py_scope with py.
Notation "x <- c ;; k" := (bind c (fun x => k))
  (at level 100, c at next level, right associativity) : py_scope.
Notation "c ;; k" := (bind c (fun _ => k))
  (at level 100, right associativity) : py_scope.
Notation "x <-? r ;; k" := (rbind r (fun x => k))
  (at level 100, r at next level, right associativity) : py_scope.
Local Open Scope py_scope.

(** ** gidgethub.routing.Router

    [Router] belongs to the gidgethub package the program imports.  Its
    tables are dictionaries in insertion order: event kind to callbacks
    ([_shallow_routes]), and event kind to payload key to payload value to
    callbacks ([_deep_routes]). *)

Definition dict (V : Type) : Type := list (string * V).

Fixpoint dict_get {V} (k : string) (d : dict V) : option V :=
  match d with
  | [] => None
  | (k', v) :: d' => if bool_decide (k' = k) then Some v else dict_get k d'
  end.

(** [d[k] = v]: replaces the value in place, or appends a new key. *)
Fixpoint dict_set {V} (k : string) (v : V) (d : dict V) : dict V :=
  match d with
  | [] => [(k, v)]
  | (k', v') :: d' =>
      if bool_decide (k' = k) then (k, v) :: d' else (k', v') :: dict_set k v d'
  end.

Record Callback : Type := mkCallback {
  cb_name : string;
  cb_run : Event -> GitHubAPI -> M unit
}.

Record Router : Type := mkRouter {
  _shallow_routes : dict (list Callback);
  _deep_routes : dict (dict (dict (list Callback)))
}.

(** [routing.Router()] *)
Definition Router_new : Router := mkRouter [] [].

(** [Router.add(func, event_type, **data_detail)] with no detail or with
    one [key=value] detail. *)
Definition add (self : Router) (func : Callback) (event_type : string)
    (data_detail : option (string * string)) : Router :=
  match data_detail with
  | None =>
      let callbacks := default [] (dict_get event_type (_shallow_routes self)) in
      mkRouter (dict_set event_type (callbacks ++ [func]) (_shallow_routes self))
               (_deep_routes self)
  | Some (data_key, data_value) =>
      let data_details := default [] (dict_get event_type (_deep_routes self)) in
      let specific_detail := default [] (dict_get data_key data_details) in
      let callbacks := default [] (dict_get data_value specific_detail) in
      mkRouter (_shallow_routes self)
               (dict_set event_type
                  (dict_set data_key
                     (dict_set data_value (callbacks ++ [func]) specific_detail)
                     data_details)
                  (_deep_routes self))
  end.

(** [@router.register(event_type, **data_detail)] *)
Definition register (self : Router) (event_type : string)
    (data_detail : option (string * string)) (func : Callback) : Router :=
  add self func event_type data_detail.

(** [event_value in data_values] followed by [data_values[event_value]]:
    the keys are strings, lists and dicts are unhashable. *)
Definition lookup_value (event_value : json) (data_values : dict (list Callback))
    : result (list Callback) :=
  match event_value with
  | JStr s => inr (default [] (dict_get s data_values))
  | JArr _ => inl (TypeError "unhashable type: 'list'")
  | JObj _ => inl (TypeError "unhashable type: 'dict'")
  | _ => inr []
  end.

Fixpoint fetch_deep (ev : Event) (details : dict (dict (list Callback)))
    : result (list Callback) :=
  match details with
  | [] => inr []
  | (data_key, data_values) :: rest =>
      here <-? (present <-? contains (data ev) data_key ;;
                if (present : bool) then
                  event_value <-? getitem (data ev) data_key ;;
                  lookup_value event_value data_values
                else inr []) ;;
      more <-? fetch_deep ev rest ;;
      inr (here ++ more)
  end.

(** The callbacks [Router.dispatch] collects for an event: those registered
    for the kind alone, then those registered for a matching detail. *)
Definition fetch (self : Router) (ev : Event) : result (list Callback) :=
  let found := default [] (dict_get (event ev) (_shallow_routes self)) in
  match dict_get (event ev) (_deep_routes self) with
  | None => inr found
  | Some details =>
      deep <-? fetch_deep ev details ;;
      inr (found ++ deep)
  end.

Fixpoint call_all (callbacks : list Callback) (ev : Event) (git : GitHubAPI)
    : M unit :=
  match callbacks with
  | [] => ret tt
  | callback :: rest =>
      tell (Entered (cb_name callback)) ;;
      cb_run callback ev git ;;
      call_all rest ev git
  end.

(** [await router.dispatch(event, gh)] *)
Definition dispatch (self : Router) (ev : Event) (git : GitHubAPI) : M unit :=
  found_callbacks <- lift (fetch self ev) ;;
  call_all found_callbacks ev git.

(** ** Requests and process start *)

(** An inbound request: its headers, keyed by lower-cased name, and the
    bytes [request.read()] returns. *)
Record Request : Type := mkRequest {
  headers : gmap string string;
  body : bytes
}.

(** What the [__main__] block ends in when it does not raise:
    [web.run_app(app, port=port)]. *)
Inductive started : Type :=
  | run_app (port : option Z).

(** ** Vocabulary of the properties *)

(** The value found by following [keys] through nested JSON objects. *)
Fixpoint path (v : json) (keys : list string) : option json :=
  match keys with
  | [] => Some v
  | k :: ks =>
      match v with
      | JObj kvs =>
          match kvs !! k with
          | Some x => path x ks
          | None => None
          end
      | _ => None
      end
  end.

Definition scalar (v : json) : bool :=
  match v with
  | JArr _ | JObj _ => false
  | _ => true
  end.

(** The payload is a mapping and its action, when it has one, is a scalar. *)
Definition well_formed (ev : Event) : bool :=
  match data ev with
  | JObj kvs =>
      match kvs !! "action" with
      | Some v => scalar v
      | None => true
      end
  | _ => false
  end.

(** The action of an event: the string under ["action"] in its payload. *)
Definition action_of (ev : Event) : option string :=
  match data ev with
  | JObj kvs =>
      match kvs !! "action" with
      | Some (JStr a) => Some a
      | _ => None
      end
  | _ => None
  end.

(** The registrations the module makes, as (kind, action, handler name);
    the action is [None] for a registration without an action. *)
Definition registrations : list (string * option string * string) :=
  [("issues", Some "opened", "issue_opened_event")].

Definition registered_as (kind : string) (action : option string)
    (r : string * option string * string) : bool :=
  bool_decide (r.1.1 = kind) && bool_decide (r.1.2 = action).

(** The lookup as the specification words it: the handler registered for
    the exact (kind, action) pair, else the one registered for (kind, None). *)
Definition spec_lookup (table : list (string * option string * string))
    (kind : string) (action : option string) : option string :=
  match List.find (registered_as kind action) table with
  | Some r => Some r.2
  | None =>
      match List.find (registered_as kind None) table with
      | Some r => Some r.2
      | None => None
      end
  end.

(** The event's (kind, action) pair has a registered handler. *)
Definition handled (ev : Event) : bool :=
  bool_decide (is_Some (spec_lookup registrations (event ev) (action_of ev))).

(** The handlers a log shows were entered, and the POSTs it shows. *)
Definition entered (log : list effect) : list string :=
  omap (fun x => match x with Entered name => Some name | _ => None end) log.

Definition posts (log : list effect) : list (GitHubAPI * json * json) :=
  omap (fun x => match x with Post g u d => Some (g, u, d) | _ => None end) log.

(** The failure of a handler that does not find a field it needs. *)
Definition schema_error (e : exn) : bool :=
  match e with
  | KeyError _ | TypeError _ => true
  | _ => false
  end.

(** A row of a registration table: [@router.register(kind)] when the
    action is [None], [@router.register(kind, action=a)] otherwise. *)
Record Registration : Type := mkRegistration {
  reg_kind : string;
  reg_action : option string;
  reg_callback : Callback
}.

(** The router after the registrations of a table, made in order. *)
Definition router_of (regs : list Registration) : Router :=
  fold_left
    (fun r g =>
       register r (reg_kind g)
         (option_map (fun a => ("action", a)) (reg_action g))
         (reg_callback g))
    regs Router_new.




(** ** Stand-ins for the library primitives, for the worked examples *)

Module Sample.

(** The request body of the scenario, as an opaque byte string; [decode]
    maps it to [payload]. *)
Definition body : bytes :=
  "{'action':'opened','issue':{'comments_url':'https://api.example/issues/1/comments','user':{'login':'alice'}}}".

Definition payload : json :=
  JObj {[ "action" := JStr "opened";
          "issue" :=
            JObj {[ "comments_url" := JStr "https://api.example/issues/1/comments";
                    "user" := JObj {[ "login" := JStr "alice" ]} ]} ]}.

Definition hmac (secret : string) (msg : bytes) : string :=
  "2fd4e1c67a2d28fced849ee1bb76e7391b93eb12".

Definition decode (content_type : string) (raw : bytes) : option json :=
  if bool_decide (content_type = "application/json") then
    if bool_decide (raw = body) then Some payload
    else if bool_decide (raw = "{}") then Some (JObj ∅)
    else None
  else None.

Definition str (v : json) : string := "None".

Definition int (s : string) : option Z :=
  if bool_decide (s = "8080") then Some 8080 else None.

Definition network (git : GitHubAPI) (url data : json) : option exn := None.

Definition hdrs (kind : string) : gmap string string :=
  {[ "content-type" := "application/json";
     "x-github-event" := kind;
     "x-github-delivery" := "72d3162e-cc78-11e3-81ab-4c9367dc0958" ]}.

Definition request (kind : string) : Request := mkRequest (hdrs kind) body.

Definition gh : GitHubAPI := mkGitHubAPI "dandelion-vn" None.

Definition user : gmap string json := {[ "login" := JStr "alice" ]}.

Definition issue : gmap string json :=
  {[ "comments_url" := JStr "https://api.example/issues/1/comments";
     "user" := JObj user ]}.

Definition kvs : gmap string json :=
  {[ "action" := JStr "opened"; "issue" := JObj issue ]}.

(** The event [from_http] builds from [request kind]. *)
Definition ev (kind : string) : Event :=
  mkEvent (JObj kvs) kind "72d3162e-cc78-11e3-81ab-4c9367dc0958".

(** An "issues"/"opened" event whose payload has no issue. *)
Definition bare : Event :=
  mkEvent (JObj {[ "action" := JStr "opened" ]}) "issues" "1".

Definition signed (signature : string) : Request :=
  mkRequest (<[ "x-hub-signature" := signature ]> (hdrs "issues")) body.

(** A remote end that cannot be reached. *)
Definition down (git : GitHubAPI) (url data : json) : option exn :=
  Some (ClientError "Cannot connect to host").

(** A payload whose URL is a number and whose login is [null]. *)
Definition odd : Event :=
  mkEvent
    (JObj {[ "action" := JStr "opened";
             "issue" :=
               JObj {[ "comments_url" := JNum 7;
                       "user" := JObj {[ "login" := JNull ]} ]} ]})
    "issues" "2".

(** An issue whose user has no login. *)
Definition anonymous : Event :=
  mkEvent
    (JObj {[ "action" := JStr "opened";
             "issue" :=
               JObj {[ "comments_url" := JStr "https://api.example/issues/1/comments";
                       "user" := JObj ∅ ]} ]})
    "issues" "3".

(** An issue whose user is [null]. *)
Definition ghost : Event :=
  mkEvent
    (JObj {[ "action" := JStr "opened";
             "issue" :=
               JObj {[ "comments_url" := JStr "https://api.example/issues/1/comments";
                       "user" := JNull ]} ]})
    "issues" "4".

(** A callback that returns at once. *)
Definition quiet (name : string) : Callback :=
  mkCallback name (fun _ _ => ret tt).

(** A table with a handler for every "issues" event and one for the
    opened ones. *)
Definition table : list Registration :=
  [mkRegistration "issues" None (quiet "on_any_issue");
   mkRegistration "issues" (Some "opened") (quiet "on_opened")].

(** An "issues" delivery whose body decodes to [{"action": []}]. *)
Definition listed_body : bytes := "{'action': []}".

Definition listed : Event :=
  mkEvent (JObj {[ "action" := JArr [] ]}) "issues"
    "72d3162e-cc78-11e3-81ab-4c9367dc0958".

Definition decode_listed (content_type : string) (raw : bytes) : option json :=
  if bool_decide (content_type = "application/json") then
    if bool_decide (raw = listed_body) then Some (JObj {[ "action" := JArr [] ]})
    else None
  else None.


End Sample.

(** ** The program and the library calls it makes *)

Section Gitbot.

(** Library primitives the program reaches but does not define. *)

(** [hmac.new(secret, msg=payload, digestmod="sha1").hexdigest()] *)
Variable hmac_sha1_hexdigest : string -> bytes -> string.

(** gidgethub's [_decode_body(content_type, body, strict=True)]; [None]
    when it raises [KeyError] or [ValueError]. *)
Variable decode_body : string -> bytes -> option json.

(** [str(v)] for a JSON value that is not a string. *)
Variable py_str : json -> string.

(** [int(s)]; [None] when it raises [ValueError]. *)
Variable py_int : string -> option Z.

(** How the remote end answers a POST: [None] when the call returns,
    [Some e] when it raises [e]. *)
Variable network : GitHubAPI -> json -> json -> option exn.

(** *** gidgethub.sansio *)

(** [sansio.validate_event(payload, signature=..., secret=...)] *)
Definition validate_event (payload : bytes) (signature secret : string)
    : result unit :=
  let signature_prefix := "sha1=" in
  if negb (String.prefix signature_prefix signature) then
    inl (ValidationFailure "signature does not start with 'sha1='")
  else
    let calculated_sig :=
      signature_prefix +:+ hmac_sha1_hexdigest secret payload in
    if negb (is_ascii signature && is_ascii calculated_sig) then
      inl (TypeError "comparing strings with non-ASCII characters is not supported")
    else if negb (bool_decide (signature = calculated_sig)) then
      inl (ValidationFailure "payload's signature does not align with the secret")
    else inr tt.

(** The signature stage of [Event.from_http]. *)
Definition check_signature (hdrs : gmap string string) (payload : bytes)
    (secret : option string) : result unit :=
  match hdrs !! "x-hub-signature" with
  | Some signature =>
      match secret with
      | None => inl (ValidationFailure "secret not provided")
      | Some s => validate_event payload signature s
      end
  | None =>
      match secret with
      | Some _ => inl (ValidationFailure "signature is missing")
      | None => inr tt
      end
  end.

Definition header (hdrs : gmap string string) (name : string) : result string :=
  match hdrs !! name with
  | Some v => inr v
  | None => inl (KeyError name)
  end.

(** [sansio.Event.from_http(headers, body, secret=secret)] *)
Definition from_http (hdrs : gmap string string) (payload : bytes)
    (secret : option string) : result Event :=
  _ <-? check_signature hdrs payload secret ;;
  payload_data <-?
    match hdrs !! "content-type" with
    | None => inl (BadRequest 415)
    | Some content_type =>
        match decode_body content_type payload with
        | Some d => inr d
        | None => inl (BadRequest 415)
        end
    end ;;
  kind <-? header hdrs "x-github-event" ;;
  delivery <-? header hdrs "x-github-delivery" ;;
  inr (mkEvent payload_data kind delivery).

(** *** gidgethub.aiohttp.GitHubAPI *)

(** [await git.post(url, data=payload)] *)
Definition post (git : GitHubAPI) (url : json) (payload : json) : M unit :=
  tell (Post git url payload) ;;
  match network git url payload with
  | Some e => raise e
  | None => ret tt
  end.

(** *** gitbot/__main__.py *)

(** [f"{v}"] *)
Definition format_value (v : json) : string :=
  match v with
  | JStr s => s
  | _ => py_str v
  end.

Definition issue_opened_event (ev : Event) (git : GitHubAPI) : M unit :=
  url <- lift (issue <-? getitem (data ev) "issue" ;;
               getitem issue "comments_url") ;;
  author <- lift (issue <-? getitem (data ev) "issue" ;;
                  user <-? getitem issue "user" ;;
                  getitem user "login") ;;
  let message :=
    ("Thanks for the report @" +:+ format_value author +:+ "! ")
    +:+ "I will look into it ASAP! (I'm a bot)." in
  post git url (JObj {[ "body" := JStr message ]}).

(** [router = routing.Router()] with the one registration of the module. *)
Definition router : Router :=
  register Router_new "issues" (Some ("action", "opened"))
    (mkCallback "issue_opened_event" issue_opened_event).

Definition main (environ : gmap string string) (request : Request)
    : M Response :=
  let payload := body request in
  let secret := environ !! "GH_SECRET" in
  let token := environ !! "GH_AUTH" in
  ev <- lift (from_http (headers request) payload secret) ;;
  let gh := mkGitHubAPI "dandelion-vn" token in
  dispatch router ev gh ;;
  ret (mkResponse 200).

(** The [if __name__ == "__main__":] block. *)
Definition __main__ (environ : gmap string string) : result started :=
  let port := environ !! "PORT" in
  port <-? match port with
           | Some s =>
               match py_int s with
               | Some n => inr (Some n)
               | None => inl (ValueError "invalid literal for int() with base 10")
               end
           | None => inr None
           end ;;
  inr (run_app port).


(** The callback object the registration stores. *)
Definition the_callback : Callback :=
  mkCallback "issue_opened_event" issue_opened_event.


(** *** Properties *)

Lemma spec_lookup_registrations (kind : string) (action : option string) :
  spec_lookup registrations kind action =
  if bool_decide (kind = "issues" /\ action = Some "opened")
  then Some "issue_opened_event" else None.
Proof.
  unfold spec_lookup, registrations, registered_as; simpl.
  destruct (decide (kind = "issues")) as [->|Hk].
  - destruct (decide (action = Some "opened")) as [->|Ha].
    + reflexivity.
    + rewrite (bool_decide_eq_false_2 (Some "opened" = action)) by congruence.
      rewrite (bool_decide_eq_false_2 (_ /\ _)) by (intros [_ ?]; done).
      rewrite andb_false_r. reflexivity.
  - rewrite (bool_decide_eq_false_2 ("issues" = kind)) by congruence.
    rewrite (bool_decide_eq_false_2 (_ /\ _)) by (intros [? _]; done).
    reflexivity.
Qed.

Lemma handled_spec (ev : Event) :
  handled ev = true <->
  event ev = "issues" /\ action_of ev = Some "opened".
Proof.
  unfold handled. rewrite spec_lookup_registrations.
  destruct (decide (event ev = "issues" /\ action_of ev = Some "opened"))
    as [H|H].
  - rewrite (bool_decide_eq_true_2 _ H).
    split; [done|]. intros _. apply bool_decide_eq_true_2. eauto.
  - rewrite (bool_decide_eq_false_2 _ H).
    split; [|done]. rewrite bool_decide_eq_true. intros [? ?]; discriminate.
Qed.

Lemma unhandled_spec (ev : Event) :
  handled ev = false <->
  ~ (event ev = "issues" /\ action_of ev = Some "opened").
Proof.
  rewrite <- handled_spec. destruct (handled ev); split; congruence.
Qed.

Lemma action_of_opened (ev : Event) :
  action_of ev = Some "opened" <->
  exists kvs, data ev = JObj kvs /\ kvs !! "action" = Some (JStr "opened").
Proof.
  unfold action_of. split.
  - destruct (data ev) as [| | | |xs|kvs]; try done.
    destruct (kvs !! "action") as [[| | |a| |]|] eqn:E; try done.
    intros [= ->]. eauto.
  - intros (kvs & -> & ->). done.
Qed.

Lemma fetch_router (ev : Event) :
  fetch router ev =
  if bool_decide (event ev = "issues")
  then fetch_deep ev [("action", [("opened", [the_callback])])]
  else inr [].
Proof.
  unfold fetch, router, register, add. simpl.
  destruct (decide (event ev = "issues")) as [Hk|Hk].
  - rewrite Hk. simpl. unfold the_callback.
    match goal with |- rbind ?r _ = _ => destruct r; reflexivity end.
  - rewrite (bool_decide_eq_false_2 ("issues" = event ev)) by congruence.
    rewrite (bool_decide_eq_false_2 (event ev = "issues")) by congruence.
    done.
Qed.

Lemma fetch_handled (ev : Event) :
  handled ev = true -> fetch router ev = inr [the_callback].
Proof.
  rewrite handled_spec, action_of_opened.
  intros (Hk & kvs & Hd & Ha).
  rewrite fetch_router, bool_decide_eq_true_2 by done.
  simpl. rewrite Hd. simpl. rewrite Ha. simpl.
  reflexivity.
Qed.

Lemma fetch_unhandled (ev : Event) :
  handled ev = false ->
  (event ev = "issues" -> well_formed ev = true) ->
  fetch router ev = inr [].
Proof.
  rewrite unhandled_spec. intros Hn Hwf.
  rewrite fetch_router. case_bool_decide as Hk; [|done].
  specialize (Hwf Hk). unfold well_formed in Hwf.
  assert (Ha : action_of ev <> Some "opened") by (intros ?; by apply Hn).
  unfold action_of in Ha. simpl.
  destruct (data ev) as [| | | |xs|kvs]; try done. simpl.
  destruct (kvs !! "action") as [v|] eqn:E.
  - rewrite bool_decide_eq_true_2 by eauto. simpl.
    destruct v as [| | |a| |]; simpl; try done.
    rewrite (bool_decide_eq_false_2 ("opened" = a)) by congruence. done.
  - rewrite bool_decide_eq_false_2; [done|]. intros [? ?]; discriminate.
Qed.

Lemma append_assoc (s1 s2 s3 : string) :
  (s1 +:+ s2) +:+ s3 = s1 +:+ s2 +:+ s3.
Proof.
  induction s1 as [|c s1 IH]; [reflexivity|].
  change (String c ((s1 +:+ s2) +:+ s3) = String c (s1 +:+ s2 +:+ s3)).
  by rewrite IH.
Qed.

(** What [dispatch] does on the program's router, by whether the event's
    pair is registered. *)
Lemma dispatch_handled (ev : Event) (git : GitHubAPI) (log : list effect) :
  handled ev = true ->
  dispatch router ev git log =
  issue_opened_event ev git (log ++ [Entered "issue_opened_event"]).
Proof.
  intros H. unfold dispatch, bind. rewrite (fetch_handled _ H). simpl.
  unfold bind, tell, ret. simpl.
  destruct (issue_opened_event _ _ _) as [[e|[]] log']; reflexivity.
Qed.

Lemma dispatch_unhandled (ev : Event) (git : GitHubAPI) (log : list effect) :
  handled ev = false ->
  (event ev = "issues" -> well_formed ev = true) ->
  dispatch router ev git log = (inr tt, log).
Proof.
  intros H Hwf. unfold dispatch, bind. rewrite (fetch_unhandled _ H Hwf).
  reflexivity.
Qed.

Lemma main_after_from_http (environ : gmap string string) (request : Request)
    (ev : Event) :
  from_http (headers request) (body request) (environ !! "GH_SECRET") = inr ev ->
  run (main environ request) =
  match run (dispatch router ev (mkGitHubAPI "dandelion-vn" (environ !! "GH_AUTH"))) with
  | (inr _, log) => (inr (mkResponse 200), log)
  | (inl e, log) => (inl e, log)
  end.
Proof.
  intros H. unfold run, main, bind. rewrite H. simpl.
  destruct (dispatch _ _ _ _) as [[e|[]] log]; reflexivity.
Qed.

Lemma main_from_http_raises (environ : gmap string string) (request : Request)
    (e : exn) :
  from_http (headers request) (body request) (environ !! "GH_SECRET") = inl e ->
  run (main environ request) = (inl e, []).
Proof.
  intros H. unfold run, main, bind. rewrite H. reflexivity.
Qed.

(** The handler, by what it finds in the payload. *)
Lemma issue_opened_event_found (ev : Event) (git : GitHubAPI)
    (log : list effect) (url author : json) :
  path (data ev) ["issue"; "comments_url"] = Some url ->
  path (data ev) ["issue"; "user"; "login"] = Some author ->
  issue_opened_event ev git log =
  post git url
    (JObj {[ "body" :=
               JStr ("Thanks for the report @" +:+ format_value author
                     +:+ "! I will look into it ASAP! (I'm a bot).") ]})
    log.
Proof.
  unfold issue_opened_event, bind, lift. simpl.
  destruct (data ev) as [| | | |xs|kvs]; try done. simpl.
  destruct (kvs !! "issue") as [issue|]; [|done].
  destruct issue as [| | | |xs|issue]; try done. simpl.
  destruct (issue !! "comments_url") as [u|]; [|done].
  intros [= ->]. destruct (issue !! "user") as [user|]; [|done].
  destruct user as [| | | |xs|user]; try done. simpl.
  destruct (user !! "login") as [a|]; [|done].
  intros [= ->]. simpl. rewrite !append_assoc. reflexivity.
Qed.

Lemma issue_opened_event_missing (ev : Event) (git : GitHubAPI)
    (log : list effect) :
  path (data ev) ["issue"; "comments_url"] = None \/
  path (data ev) ["issue"; "user"; "login"] = None ->
  exists e, issue_opened_event ev git log = (inl e, log) /\
            schema_error e = true.
Proof.
  unfold issue_opened_event, bind, lift. simpl.
  destruct (data ev) as [| | | |xs|kvs]; simpl; eauto.
  destruct (kvs !! "issue") as [issue|]; simpl; eauto.
  destruct issue as [| | | |xs|issue]; simpl; eauto.
  destruct (issue !! "comments_url") as [u|]; simpl; eauto.
  destruct (issue !! "user") as [user|]; simpl; eauto.
  destruct user as [| | | |xs|user]; simpl; eauto.
  destruct (user !! "login") as [a|]; simpl; eauto.
  intros [?|?]; discriminate.
Qed.

(** The handler logs nothing but its POST. *)
Lemma issue_opened_event_entered (ev : Event) (git : GitHubAPI)
    (log : list effect) :
  entered (snd (issue_opened_event ev git log)) = entered log.
Proof.
  unfold issue_opened_event, bind, lift, post, tell, raise, ret.
  destruct (rbind _ _) as [e|url]; [reflexivity|].
  destruct (rbind _ _) as [e|author]; [reflexivity|]. simpl.
  destruct (network _ _ _); simpl; unfold entered;
    rewrite omap_app; simpl; by rewrite app_nil_r.
Qed.

(** C1.  An "issues" event with action "opened" whose payload carries
    [issue.comments_url] and [issue.user.login] makes [dispatch] enter the
    handler once and make exactly one call on the API client: a POST to
    the payload's comments URL whose JSON body is
    [{"body": "Thanks for the report @<login>! I will look into it ASAP! (I'm a bot)."}].
    The result of [dispatch] is the result of that POST. *)
Theorem issue_opened_posts_once (ev : Event) (git : GitHubAPI)
    (kvs issue user : gmap string json) (url login : string) :
  event ev = "issues" ->
  data ev = JObj kvs ->
  kvs !! "action" = Some (JStr "opened") ->
  kvs !! "issue" = Some (JObj issue) ->
  issue !! "comments_url" = Some (JStr url) ->
  issue !! "user" = Some (JObj user) ->
  user !! "login" = Some (JStr login) ->
  run (dispatch router ev git) =
  (match
     network git (JStr url)
       (JObj {[ "body" :=
                  JStr ("Thanks for the report @" +:+ login
                        +:+ "! I will look into it ASAP! (I'm a bot).") ]})
   with
   | Some e => inl e
   | None => inr tt
   end,
   [Entered "issue_opened_event";
    Post git (JStr url)
      (JObj {[ "body" :=
                 JStr ("Thanks for the report @" +:+ login
                       +:+ "! I will look into it ASAP! (I'm a bot).") ]})]).
Proof.
  intros Hk Hd Ha Hi Hu Hus Hl.
  assert (Hh : handled ev = true).
  { apply handled_spec. split; [done|]. apply action_of_opened. eauto. }
  unfold run. rewrite (dispatch_handled _ _ _ Hh).
  rewrite (issue_opened_event_found _ _ _ (JStr url) (JStr login)).
  - unfold post, bind, tell, raise, ret. simpl.
    destruct (network _ _ _); reflexivity.
  - rewrite Hd. simpl. rewrite Hi. simpl. by rewrite Hu.
  - rewrite Hd. simpl. rewrite Hi. simpl. rewrite Hus. simpl. by rewrite Hl.
Qed.

(** C2, as the code has it.  When the event's (kind, action) pair has no
    registered handler and, for the one kind that has registrations, the
    payload is a mapping with an absent or scalar action, [dispatch]
    returns without raising and without entering a handler or calling the
    API client, and the endpoint answers such a request with status 200. *)
Theorem unhandled_event_is_noop (ev : Event) (git : GitHubAPI) :
  handled ev = false ->
  (event ev = "issues" -> well_formed ev = true) ->
  run (dispatch router ev git) = (inr tt, []) /\
  forall (environ : gmap string string) (request : Request),
    from_http (headers request) (body request) (environ !! "GH_SECRET")
    = inr ev ->
    run (main environ request) = (inr (mkResponse 200), []).
Proof.
  intros H Hwf. split.
  - unfold run. by apply dispatch_unhandled.
  - intros environ request Hev.
    rewrite (main_after_from_http _ _ _ Hev).
    unfold run. by rewrite dispatch_unhandled.
Qed.

(** C6.  For an "issues" event with action "opened" whose payload lacks
    [issue.comments_url] or [issue.user.login], the handler raises the
    error of the failed field access before any call on the API client,
    and the endpoint lets that error through: [main] raises the same
    error and returns no response. *)
Theorem missing_field_raises (ev : Event) (git : GitHubAPI) :
  handled ev = true ->
  path (data ev) ["issue"; "comments_url"] = None \/
  path (data ev) ["issue"; "user"; "login"] = None ->
  exists e : exn,
    run (dispatch router ev git) = (inl e, [Entered "issue_opened_event"]) /\
    schema_error e = true /\
    forall (environ : gmap string string) (request : Request),
      from_http (headers request) (body request) (environ !! "GH_SECRET")
      = inr ev ->
      run (main environ request) = (inl e, [Entered "issue_opened_event"]).
Proof.
  intros H Hmiss.
  destruct (issue_opened_event_missing ev git [Entered "issue_opened_event"] Hmiss)
    as (e & He & Hs).
  exists e. split; [|split; [done|]].
  - unfold run. by rewrite (dispatch_handled _ _ _ H).
  - intros environ request Hev.
    rewrite (main_after_from_http _ _ _ Hev). unfold run.
    rewrite (dispatch_handled _ _ _ H). simpl.
    destruct (issue_opened_event_missing ev
                (mkGitHubAPI "dandelion-vn" (environ !! "GH_AUTH"))
                [Entered "issue_opened_event"] Hmiss) as (e' & He' & _).
    rewrite He'. f_equal.
    (* the error does not depend on the client *)
    revert He He'. unfold issue_opened_event, bind, lift.
    destruct (rbind _ _) as [e1|u]; simpl.
    + intros [= <-] [= <-]. reflexivity.
    + destruct (rbind _ _) as [e2|a]; simpl.
      * intros [= <-] [= <-]. reflexivity.
      * unfold post, bind, tell. simpl.
        destruct (network git _ _); intros [= _ Hlog];
          apply (f_equal length) in Hlog; simpl in Hlog; discriminate.
Qed.

(** C7.  When signature check and parsing yield an event and [dispatch]
    returns without raising, the endpoint returns status 200, whether or
    not a handler ran; what the request did is what [dispatch] did. *)
Theorem completed_request_gets_200 (environ : gmap string string)
    (request : Request) (ev : Event) :
  from_http (headers request) (body request) (environ !! "GH_SECRET")
  = inr ev ->
  fst (run (dispatch router ev
              (mkGitHubAPI "dandelion-vn" (environ !! "GH_AUTH")))) = inr tt ->
  run (main environ request) =
  (inr (mkResponse 200),
   snd (run (dispatch router ev
               (mkGitHubAPI "dandelion-vn" (environ !! "GH_AUTH"))))).
Proof.
  intros Hev Hd. rewrite (main_after_from_http _ _ _ Hev).
  destruct (run _) as [[e|[]] log]; simpl in *; [discriminate|reflexivity].
Qed.

(** *** Signature check *)

Lemma validate_event_mismatch (payload : bytes) (signature secret : string) :
  signature <> "sha1=" +:+ hmac_sha1_hexdigest secret payload ->
  exists e, validate_event payload signature secret = inl e.
Proof.
  intros Hne. unfold validate_event.
  destruct (String.prefix _ _); simpl; [|eauto].
  destruct (is_ascii signature && _); simpl; [|eauto].
  rewrite bool_decide_eq_false_2 by done. simpl. eauto.
Qed.

Lemma prefix_sha1 (digest : string) :
  String.prefix "sha1=" ("sha1=" +:+ digest) = true.
Proof. cbn. by destruct digest. Qed.

Lemma validate_event_passes (payload : bytes) (signature secret : string) :
  validate_event payload signature secret = inr tt <->
  signature = "sha1=" +:+ hmac_sha1_hexdigest secret payload /\
  is_ascii (hmac_sha1_hexdigest secret payload) = true.
Proof.
  unfold validate_event. split.
  - destruct (String.prefix _ _); simpl; [|done].
    destruct (is_ascii signature) eqn:Hs; simpl; [|done].
    destruct (is_ascii ("sha1=" +:+ _)) eqn:Hc; simpl; [|done].
    case_bool_decide as Heq; simpl; [|done].
    intros _. split; [done|]. exact Hc.
  - intros [-> Ha].
    rewrite prefix_sha1. simpl.
    replace (is_ascii ("sha1=" +:+ hmac_sha1_hexdigest secret payload))
      with (is_ascii (hmac_sha1_hexdigest secret payload)) by reflexivity.
    rewrite Ha. simpl. by rewrite bool_decide_eq_true_2.
Qed.

Lemma from_http_check_fails (hdrs : gmap string string) (payload : bytes)
    (secret : option string) (e : exn) :
  check_signature hdrs payload secret = inl e ->
  from_http hdrs payload secret = inl e.
Proof. intros H. unfold from_http. by rewrite H. Qed.

(** C3.  A request whose signature header differs from the signature
    computed from the configured secret and the body, or that carries no
    signature header while a secret is configured, makes [main] raise in
    the signature check: no handler is entered, no call is made on the
    API client, and no response is returned. *)
Theorem bad_signature_stops_request (environ : gmap string string)
    (request : Request) :
  (exists signature secret,
      headers request !! "x-hub-signature" = Some signature /\
      environ !! "GH_SECRET" = Some secret /\
      signature <> "sha1=" +:+ hmac_sha1_hexdigest secret (body request)) \/
  (headers request !! "x-hub-signature" = None /\
   is_Some (environ !! "GH_SECRET")) ->
  exists e : exn,
    check_signature (headers request) (body request) (environ !! "GH_SECRET")
    = inl e /\
    run (main environ request) = (inl e, []).
Proof.
  intros H.
  assert (exists e, check_signature (headers request) (body request)
                      (environ !! "GH_SECRET") = inl e) as [e He].
  { unfold check_signature.
    destruct H as [(signature & secret & -> & -> & Hne)|[-> [secret ->]]].
    - by apply validate_event_mismatch.
    - eauto. }
  exists e. split; [done|].
  apply main_from_http_raises. by apply from_http_check_fails.
Qed.

(** C5, as the code has it.  The signature check passes in exactly two
    cases: no secret is configured and the request carries no signature
    header (the check is skipped), or a secret is configured, empty or
    not, and the header is "sha1=" followed by the digest of the body
    under that secret.  In every other case it raises. *)
Theorem check_signature_passes_iff (hdrs : gmap string string)
    (payload : bytes) (secret : option string) :
  check_signature hdrs payload secret = inr tt <->
  (hdrs !! "x-hub-signature" = None /\ secret = None) \/
  (exists s,
      secret = Some s /\
      hdrs !! "x-hub-signature"
      = Some ("sha1=" +:+ hmac_sha1_hexdigest s payload) /\
      is_ascii (hmac_sha1_hexdigest s payload) = true).
Proof.
  unfold check_signature.
  destruct (hdrs !! "x-hub-signature") as [signature|], secret as [s|].
  - rewrite validate_event_passes. split.
    + intros [-> Ha]. right. eauto.
    + intros [[? ?]|(s' & [= <-] & [= ->] & Ha)]; [done|]. done.
  - split; [done|]. intros [[? ?]|(s' & ? & _)]; done.
  - split; [done|]. intros [[_ ?]|(s' & _ & ? & _)]; done.
  - split; [|done]. intros _. by left.
Qed.

(** C8.  The outcome of the signature check made for a request is fixed
    by the body, the signature header and the configured secret: two
    requests and environments that agree on these three get the same
    outcome, whatever else differs. *)
Theorem verification_depends_on_triple (environ1 environ2 : gmap string string)
    (request1 request2 : Request) :
  body request1 = body request2 ->
  headers request1 !! "x-hub-signature" = headers request2 !! "x-hub-signature" ->
  environ1 !! "GH_SECRET" = environ2 !! "GH_SECRET" ->
  check_signature (headers request1) (body request1) (environ1 !! "GH_SECRET")
  = check_signature (headers request2) (body request2) (environ2 !! "GH_SECRET").
Proof.
  intros Hb Hs He. unfold check_signature. by rewrite Hb, Hs, He.
Qed.


(** C10.  When PORT is set to a string [int] rejects, the [__main__]
    block raises [ValueError] and never reaches [web.run_app]; when PORT
    is unset, [web.run_app] is called with [port=None]. *)
Theorem port_is_converted_at_startup (environ : gmap string string) :
  (forall s : string,
      environ !! "PORT" = Some s ->
      py_int s = None ->
      exists msg, __main__ environ = inl (ValueError msg)) /\
  (environ !! "PORT" = None -> __main__ environ = inr (run_app None)).
Proof.
  unfold __main__. split.
  - intros s -> ->. simpl. eauto.
  - intros ->. reflexivity.
Qed.

(** *** Further properties of the handler, the endpoint and the start-up *)

(** The callbacks the module's router finds: none, or the one handler, and
    the handler exactly when the event's pair is registered. *)
Lemma fetch_router_cases (ev : Event) :
  (exists e, fetch router ev = inl e /\ handled ev = false) \/
  (fetch router ev = inr [] /\ handled ev = false) \/
  (fetch router ev = inr [the_callback] /\ handled ev = true).
Proof.
  destruct (handled ev) eqn:H.
  { right. right. split; [by apply fetch_handled|done]. }
  apply unhandled_spec in H.
  rewrite fetch_router. case_bool_decide as Hk; [|by right; left].
  assert (Ha : action_of ev <> Some "opened") by (intros ?; by apply H).
  unfold action_of in Ha. simpl.
  destruct (data ev) as [| |n|s|xs|kvs]; simpl; eauto.
  - destruct (bool_decide _); simpl; eauto.
  - destruct (existsb _ _); simpl; eauto.
  - destruct (kvs !! "action") as [v|] eqn:E.
    + rewrite bool_decide_eq_true_2 by eauto. simpl.
      destruct v as [| | |a| |]; simpl; eauto.
      rewrite (bool_decide_eq_false_2 ("opened" = a)) by congruence. eauto.
    + rewrite bool_decide_eq_false_2; [eauto|]. intros [? ?]; discriminate.
Qed.

Lemma dispatch_cases (ev : Event) (git : GitHubAPI) (log : list effect) :
  (exists e, dispatch router ev git log = (inl e, log) /\ handled ev = false) \/
  (dispatch router ev git log = (inr tt, log) /\ handled ev = false) \/
  (dispatch router ev git log
   = issue_opened_event ev git (log ++ [Entered "issue_opened_event"]) /\
   handled ev = true).
Proof.
  destruct (fetch_router_cases ev) as [(e & He & H)|[[He H]|[He H]]].
  - left. exists e. split; [|done]. unfold dispatch, bind. by rewrite He.
  - right. left. split; [|done]. unfold dispatch, bind. by rewrite He.
  - right. right. split; [|done]. by apply dispatch_handled.
Qed.

(** The handler either raises before its POST or makes the one POST. *)
Lemma issue_opened_event_cases (ev : Event) (git : GitHubAPI)
    (log : list effect) :
  (exists e, issue_opened_event ev git log = (inl e, log) /\
             (path (data ev) ["issue"; "comments_url"] = None \/
              path (data ev) ["issue"; "user"; "login"] = None)) \/
  (exists url author payload,
      path (data ev) ["issue"; "comments_url"] = Some url /\
      path (data ev) ["issue"; "user"; "login"] = Some author /\
      issue_opened_event ev git log
      = (match network git url payload with
         | Some e => inl e
         | None => inr tt
         end, log ++ [Post git url payload])).
Proof.
  destruct (path (data ev) ["issue"; "comments_url"]) as [url|] eqn:Hu;
    [destruct (path (data ev) ["issue"; "user"; "login"]) as [author|] eqn:Ha|].
  - right. exists url, author.
    exists (JObj {[ "body" :=
                      JStr ("Thanks for the report @" +:+ format_value author
                            +:+ "! I will look into it ASAP! (I'm a bot).") ]}).
    split; [done|]. split; [done|].
    rewrite (issue_opened_event_found _ _ _ _ _ Hu Ha).
    unfold post, bind, tell, raise, ret. simpl.
    destruct (network _ _ _); reflexivity.
  - left. destruct (issue_opened_event_missing ev git log) as (e & He & _);
      eauto.
  - left. destruct (issue_opened_event_missing ev git log) as (e & He & _);
      eauto.
Qed.

(** X1.  The handler does not inspect what it finds: whatever JSON values
    sit at [issue.comments_url] and [issue.user.login], it makes one POST
    on the client it was given, to that URL value as it is, with the
    message built from the formatted login, and its result is the result
    of that POST. *)
Theorem handler_posts_what_it_finds (ev : Event) (git : GitHubAPI)
    (url author : json) :
  path (data ev) ["issue"; "comments_url"] = Some url ->
  path (data ev) ["issue"; "user"; "login"] = Some author ->
  run (issue_opened_event ev git) =
  (match
     network git url
       (JObj {[ "body" :=
                  JStr ("Thanks for the report @" +:+ format_value author
                        +:+ "! I will look into it ASAP! (I'm a bot).") ]})
   with
   | Some e => inl e
   | None => inr tt
   end,
   [Post git url
      (JObj {[ "body" :=
                 JStr ("Thanks for the report @" +:+ format_value author
                       +:+ "! I will look into it ASAP! (I'm a bot).") ]})]).
Proof.
  intros Hu Ha. unfold run.
  rewrite (issue_opened_event_found _ _ _ _ _ Hu Ha).
  unfold post, bind, tell, raise, ret. simpl.
  destruct (network _ _ _); reflexivity.
Qed.

(** X2.  On a mapping payload the handler reports the first key it misses,
    in the order it reads them: "issue", then "comments_url", then "user",
    then "login"; and it has made no call on the client by then. *)
Theorem handler_reports_first_missing_key (ev : Event) (git : GitHubAPI)
    (kvs : gmap string json) :
  data ev = JObj kvs ->
  (kvs !! "issue" = None ->
   run (issue_opened_event ev git) = (inl (KeyError "issue"), [])) /\
  (forall issue : gmap string json,
      kvs !! "issue" = Some (JObj issue) ->
      (issue !! "comments_url" = None ->
       run (issue_opened_event ev git) = (inl (KeyError "comments_url"), [])) /\
      (is_Some (issue !! "comments_url") ->
       issue !! "user" = None ->
       run (issue_opened_event ev git) = (inl (KeyError "user"), [])) /\
      (forall user : gmap string json,
          is_Some (issue !! "comments_url") ->
          issue !! "user" = Some (JObj user) ->
          user !! "login" = None ->
          run (issue_opened_event ev git) = (inl (KeyError "login"), []))).
Proof.
  intros Hd. unfold run, issue_opened_event, bind, lift. rewrite Hd. simpl.
  split.
  - intros ->. reflexivity.
  - intros issue ->. simpl. split; [|split].
    + intros ->. reflexivity.
    + intros [u ->] ->. reflexivity.
    + intros user [u ->] ->. simpl. intros ->. reflexivity.
Qed.

(** X3.  When the POST of the handler raises, the endpoint raises the same
    error and returns no response; the POST was attempted once and is not
    repeated. *)
Theorem post_failure_reaches_endpoint (environ : gmap string string)
    (request : Request) (ev : Event) (url author : json) (e : exn) :
  from_http (headers request) (body request) (environ !! "GH_SECRET") = inr ev ->
  handled ev = true ->
  path (data ev) ["issue"; "comments_url"] = Some url ->
  path (data ev) ["issue"; "user"; "login"] = Some author ->
  network (mkGitHubAPI "dandelion-vn" (environ !! "GH_AUTH")) url
    (JObj {[ "body" :=
               JStr ("Thanks for the report @" +:+ format_value author
                     +:+ "! I will look into it ASAP! (I'm a bot).") ]})
  = Some e ->
  run (main environ request) =
  (inl e,
   [Entered "issue_opened_event";
    Post (mkGitHubAPI "dandelion-vn" (environ !! "GH_AUTH")) url
      (JObj {[ "body" :=
                 JStr ("Thanks for the report @" +:+ format_value author
                       +:+ "! I will look into it ASAP! (I'm a bot).") ]})]).
Proof.
  intros Hev Hh Hu Ha Hn.
  rewrite (main_after_from_http _ _ _ Hev). unfold run.
  rewrite (dispatch_handled _ _ _ Hh).
  rewrite (issue_opened_event_found _ _ _ _ _ Hu Ha).
  unfold post, bind, tell, raise, ret. simpl. by rewrite Hn.
Qed.

(** X4.  Whatever the request and the environment, what the endpoint does
    is one of three things: nothing; entering the handler, which raises
    before its POST; or entering the handler, which makes one POST, on the
    client of requester "dandelion-vn" with the token GH_AUTH holds at that
    moment (none when it is unset). *)
Theorem main_log_shapes (environ : gmap string string) (request : Request) :
  snd (run (main environ request)) = [] \/
  snd (run (main environ request)) = [Entered "issue_opened_event"] \/
  exists url payload,
    snd (run (main environ request)) =
    [Entered "issue_opened_event";
     Post (mkGitHubAPI "dandelion-vn" (environ !! "GH_AUTH")) url payload].
Proof.
  destruct (from_http (headers request) (body request) (environ !! "GH_SECRET"))
    as [e|ev] eqn:Hev.
  { left. by rewrite (main_from_http_raises _ _ _ Hev). }
  rewrite (main_after_from_http _ _ _ Hev). unfold run.
  destruct (dispatch_cases ev (mkGitHubAPI "dandelion-vn" (environ !! "GH_AUTH")) [])
    as [(e & -> & _)|[[-> _]|[-> _]]]; [by left|by left|].
  destruct (issue_opened_event_cases ev
              (mkGitHubAPI "dandelion-vn" (environ !! "GH_AUTH"))
              ([] ++ [Entered "issue_opened_event"]))
    as [(e & -> & _)|(url & author & payload & _ & _ & ->)].
  - right. left. reflexivity.
  - right. right. exists url, payload.
    destruct (network _ _ _); reflexivity.
Qed.

(** X5.  The endpoint calls the API client only for a request that passed
    the signature check and parsing and whose event is an "issues" event
    with action "opened" carrying both fields the handler reads. *)
Theorem main_posts_only_for_registered_event (environ : gmap string string)
    (request : Request) :
  posts (snd (run (main environ request))) <> [] ->
  exists ev : Event,
    from_http (headers request) (body request) (environ !! "GH_SECRET") = inr ev /\
    handled ev = true /\
    is_Some (path (data ev) ["issue"; "comments_url"]) /\
    is_Some (path (data ev) ["issue"; "user"; "login"]).
Proof.
  destruct (from_http (headers request) (body request) (environ !! "GH_SECRET"))
    as [e|ev] eqn:Hev.
  { rewrite (main_from_http_raises _ _ _ Hev). simpl. done. }
  rewrite (main_after_from_http _ _ _ Hev). unfold run.
  destruct (dispatch_cases ev (mkGitHubAPI "dandelion-vn" (environ !! "GH_AUTH")) [])
    as [(e & -> & _)|[[-> _]|[-> Hh]]]; [done|done|].
  destruct (issue_opened_event_cases ev
              (mkGitHubAPI "dandelion-vn" (environ !! "GH_AUTH"))
              ([] ++ [Entered "issue_opened_event"]))
    as [(e & -> & _)|(url & author & payload & Hu & Ha & ->)].
  - simpl. done.
  - intros _. exists ev. rewrite Hu, Ha. eauto.
Qed.

(** X6.  The endpoint returns a response exactly when the signature check
    and parsing yield an event and [dispatch] returns for it, and the only
    response it ever returns has status 200. *)
Theorem main_responds_iff (environ : gmap string string) (request : Request)
    (response : Response) :
  fst (run (main environ request)) = inr response <->
  response = mkResponse 200 /\
  exists ev : Event,
    from_http (headers request) (body request) (environ !! "GH_SECRET") = inr ev /\
    fst (run (dispatch router ev
                (mkGitHubAPI "dandelion-vn" (environ !! "GH_AUTH")))) = inr tt.
Proof.
  destruct (from_http (headers request) (body request) (environ !! "GH_SECRET"))
    as [e|ev] eqn:Hev.
  - rewrite (main_from_http_raises _ _ _ Hev). simpl. split; [done|].
    intros [_ (ev & ? & _)]. done.
  - rewrite (main_after_from_http _ _ _ Hev).
    destruct (run (dispatch _ _ _)) as [[e|[]] log] eqn:Hrun; simpl; split.
    + done.
    + intros [_ (ev' & [= <-] & Hd)]. rewrite Hrun in Hd. done.
    + intros [= <-]. split; [done|]. exists ev. by rewrite Hrun.
    + intros [-> _]. done.
Qed.

(** X7.  For every event, without any condition on its payload, the
    registered handler is entered by [dispatch] exactly when the event's
    kind is "issues" and the action in its payload is "opened". *)
Theorem handler_entered_iff_registered (ev : Event) (git : GitHubAPI) :
  "issue_opened_event" ∈ entered (snd (run (dispatch router ev git))) <->
  event ev = "issues" /\ action_of ev = Some "opened".
Proof.
  rewrite <- handled_spec. unfold run.
  destruct (dispatch_cases ev git [])
    as [(e & -> & Hh)|[[-> Hh]|[-> Hh]]]; rewrite Hh; simpl.
  - split; [|done]. by intros ?%elem_of_nil.
  - split; [|done]. by intros ?%elem_of_nil.
  - rewrite issue_opened_event_entered. simpl. split; [done|].
    intros _. apply list_elem_of_here.
Qed.

(** X8.  The start-up succeeds exactly when PORT is unset, in which case
    [web.run_app] gets [port=None], or PORT holds a string [int] accepts,
    in which case [web.run_app] gets that integer; no other variable of
    the environment is looked at. *)
Theorem startup_succeeds_iff (environ : gmap string string) (port : option Z) :
  __main__ environ = inr (run_app port) <->
  (environ !! "PORT" = None /\ port = None) \/
  (exists (s : string) (n : Z),
      environ !! "PORT" = Some s /\ py_int s = Some n /\ port = Some n).
Proof.
  unfold __main__. destruct (environ !! "PORT") as [s|]; simpl.
  - destruct (py_int s) as [n|] eqn:Hn; simpl; split.
    + intros [= <-]. right. eauto.
    + intros [[? _]|(s' & n' & [= <-] & Hn' & ->)]; [done|].
      rewrite Hn in Hn'. by injection Hn' as ->.
    + done.
    + intros [[? _]|(s' & n' & [= <-] & Hn' & _)]; [done|]. congruence.
  - split.
    + intros [= <-]. by left.
    + intros [[_ ->]|(s & n & ? & _)]; done.
Qed.

(** X9.  When the issue of the payload is present but is not a mapping,
    or the issue is a mapping that has a comments URL and whose user is
    present but is not a mapping (for instance [null]), the handler raises
    [TypeError], again before any call on the client. *)
Theorem handler_rejects_non_mapping (ev : Event) (git : GitHubAPI)
    (kvs : gmap string json) :
  data ev = JObj kvs ->
  (forall v : json,
      kvs !! "issue" = Some v ->
      (forall m, v <> JObj m) ->
      exists msg, run (issue_opened_event ev git) = (inl (TypeError msg), [])) /\
  (forall (issue : gmap string json) (v : json),
      kvs !! "issue" = Some (JObj issue) ->
      is_Some (issue !! "comments_url") ->
      issue !! "user" = Some v ->
      (forall m, v <> JObj m) ->
      exists msg, run (issue_opened_event ev git) = (inl (TypeError msg), [])).
Proof.
  intros Hd. unfold run, issue_opened_event, bind, lift. rewrite Hd. simpl.
  split.
  - intros v -> Hv. destruct v; simpl; eauto. by destruct (Hv kvs0).
  - intros issue v ->. simpl. intros [u ->]. simpl. intros -> Hv.
    destruct v; simpl; eauto. by destruct (Hv kvs0).
Qed.

(** *** The router over any table of registrations *)









Lemma router_is_router_of :
  router = router_of [mkRegistration "issues" (Some "opened") the_callback].
Proof. reflexivity. Qed.


End Gitbot.

(** ** Worked examples *)

(** C1 at the scenario of the specification: the payload of issue 1 opened
    by alice. *)
Lemma issue_opened_posts_once_witness :
  run (dispatch (router Sample.str Sample.network) (Sample.ev "issues") Sample.gh)
  = (inr tt,
     [Entered "issue_opened_event";
      Post Sample.gh (JStr "https://api.example/issues/1/comments")
        (JObj {[ "body" :=
                   JStr "Thanks for the report @alice! I will look into it ASAP! (I'm a bot)." ]})]).
Proof.
  exact (issue_opened_posts_once Sample.str Sample.network
           (Sample.ev "issues") Sample.gh Sample.kvs Sample.issue Sample.user
           "https://api.example/issues/1/comments" "alice"
           eq_refl eq_refl eq_refl eq_refl eq_refl eq_refl eq_refl).
Defined.

(** C2 at the scenario of the specification: the same payload delivered as
    a "pull_request" event. *)
Lemma unhandled_event_is_noop_witness :
  handled (Sample.ev "pull_request") = false /\
  run (dispatch (router Sample.str Sample.network) (Sample.ev "pull_request") Sample.gh)
  = (inr tt, []) /\
  run (main Sample.hmac Sample.decode Sample.str Sample.network ∅
         (Sample.request "pull_request"))
  = (inr (mkResponse 200), []).
Proof.
  assert (Hh : handled (Sample.ev "pull_request") = false) by reflexivity.
  assert (Hwf : event (Sample.ev "pull_request") = "issues" ->
                well_formed (Sample.ev "pull_request") = true)
    by (intros _; reflexivity).
  destruct (unhandled_event_is_noop Sample.hmac Sample.decode Sample.str
              Sample.network (Sample.ev "pull_request") Sample.gh Hh Hwf)
    as [Hd Hm].
  split; [exact Hh|]. split; [exact Hd|].
  apply Hm. reflexivity.
Defined.

(** C3: a secret is configured and the signature header does not carry the
    digest. *)
Lemma bad_signature_stops_request_witness :
  exists e : exn,
    check_signature Sample.hmac (headers (Sample.signed "sha1=00"))
      (body (Sample.signed "sha1=00"))
      (({[ "GH_SECRET" := "s3cret" ]} : gmap string string) !! "GH_SECRET")
    = inl e /\
    run (main Sample.hmac Sample.decode Sample.str Sample.network
           {[ "GH_SECRET" := "s3cret" ]} (Sample.signed "sha1=00"))
    = (inl e, []).
Proof.
  apply bad_signature_stops_request. left.
  exists "sha1=00", "s3cret". split; [reflexivity|]. split; [reflexivity|].
  discriminate.
Defined.

(** C6: an "issues"/"opened" event without an issue. *)
Lemma missing_field_raises_witness :
  exists e : exn,
    run (dispatch (router Sample.str Sample.network) Sample.bare Sample.gh)
    = (inl e, [Entered "issue_opened_event"]) /\
    schema_error e = true /\
    forall (environ : gmap string string) (request : Request),
      from_http Sample.hmac Sample.decode (headers request) (body request)
        (environ !! "GH_SECRET") = inr Sample.bare ->
      run (main Sample.hmac Sample.decode Sample.str Sample.network environ request)
      = (inl e, [Entered "issue_opened_event"]).
Proof.
  apply missing_field_raises; [reflexivity|]. left. reflexivity.
Defined.

(** C7 at the scenario of the specification: the request is answered 200
    after the handler's POST. *)
Lemma completed_request_gets_200_witness :
  run (main Sample.hmac Sample.decode Sample.str Sample.network ∅
         (Sample.request "issues"))
  = (inr (mkResponse 200),
     [Entered "issue_opened_event";
      Post Sample.gh (JStr "https://api.example/issues/1/comments")
        (JObj {[ "body" :=
                   JStr "Thanks for the report @alice! I will look into it ASAP! (I'm a bot)." ]})]).
Proof.
  exact (completed_request_gets_200 Sample.hmac Sample.decode Sample.str
           Sample.network ∅ (Sample.request "issues") (Sample.ev "issues")
           eq_refl eq_refl).
Defined.

(** C8: the same signed body delivered under two event kinds. *)
Lemma verification_depends_on_triple_witness :
  check_signature Sample.hmac
    (headers (mkRequest (<[ "x-hub-signature" := "sha1=00" ]> (Sample.hdrs "issues")) Sample.body))
    Sample.body (Some "s3cret")
  = check_signature Sample.hmac
      (headers (mkRequest (<[ "x-hub-signature" := "sha1=00" ]> (Sample.hdrs "ping")) Sample.body))
      Sample.body (Some "s3cret").
Proof.
  exact (verification_depends_on_triple Sample.hmac
           {[ "GH_SECRET" := "s3cret" ]}
           {[ "GH_SECRET" := "s3cret"; "GH_AUTH" := "t0ken" ]}
           (mkRequest (<[ "x-hub-signature" := "sha1=00" ]> (Sample.hdrs "issues")) Sample.body)
           (mkRequest (<[ "x-hub-signature" := "sha1=00" ]> (Sample.hdrs "ping")) Sample.body)
           eq_refl eq_refl eq_refl).
Defined.


(** C10: PORT is "80a", and PORT is unset. *)
Lemma port_is_converted_at_startup_witness :
  (exists msg, __main__ Sample.int {[ "PORT" := "80a" ]} = inl (ValueError msg)) /\
  __main__ Sample.int ∅ = inr (run_app None).
Proof.
  split.
  - apply (proj1 (port_is_converted_at_startup Sample.int {[ "PORT" := "80a" ]})
             "80a"); reflexivity.
  - apply (proj2 (port_is_converted_at_startup Sample.int ∅)). reflexivity.
Defined.

(** ** Where the code departs from the specification *)

(** C5 fails on the code: with no secret configured, a request without a
    signature header passes the signature check whatever the digest
    function is, and at the scenario of the specification it is handled to
    the end; and an empty secret passes the check like any other key. *)
Lemma unsigned_request_passes_without_secret :
  (forall hmac_sha1_hexdigest : string -> bytes -> string,
      check_signature hmac_sha1_hexdigest (Sample.hdrs "issues") Sample.body None
      = inr tt) /\
  run (main Sample.hmac Sample.decode Sample.str Sample.network ∅
         (Sample.request "issues"))
  = (inr (mkResponse 200),
     [Entered "issue_opened_event";
      Post Sample.gh (JStr "https://api.example/issues/1/comments")
        (JObj {[ "body" :=
                   JStr "Thanks for the report @alice! I will look into it ASAP! (I'm a bot)." ]})]) /\
  check_signature Sample.hmac
    (headers (Sample.signed ("sha1=" +:+ Sample.hmac "" Sample.body)))
    Sample.body (Some "")
  = inr tt.
Proof.
  split; [|split].
  - intros hmac_sha1_hexdigest. reflexivity.
  - reflexivity.
  - reflexivity.
Qed.


(** ** Worked examples for the further properties *)

(** X1: a payload whose URL is a number and whose login is [null]. *)
Lemma handler_posts_what_it_finds_witness :
  run (issue_opened_event Sample.str Sample.network Sample.odd Sample.gh)
  = (inr tt,
     [Post Sample.gh (JNum 7)
        (JObj {[ "body" :=
                   JStr "Thanks for the report @None! I will look into it ASAP! (I'm a bot)." ]})]).
Proof.
  exact (handler_posts_what_it_finds Sample.str Sample.network Sample.odd
           Sample.gh (JNum 7) JNull eq_refl eq_refl).
Defined.

(** X2: the issue has a URL and a user without a login. *)
Lemma handler_reports_first_missing_key_witness :
  run (issue_opened_event Sample.str Sample.network Sample.anonymous Sample.gh)
  = (inl (KeyError "login"), []).
Proof.
  refine (proj2 (proj2 (proj2 (handler_reports_first_missing_key Sample.str
            Sample.network Sample.anonymous Sample.gh
            {[ "action" := JStr "opened";
               "issue" :=
                 JObj {[ "comments_url" := JStr "https://api.example/issues/1/comments";
                         "user" := JObj ∅ ]} ]}
            eq_refl)
          {[ "comments_url" := JStr "https://api.example/issues/1/comments";
             "user" := JObj ∅ ]}
          eq_refl)) ∅ _ eq_refl eq_refl).
  eexists. reflexivity.
Defined.

(** X3: the scenario of alice with the remote end unreachable. *)
Lemma post_failure_reaches_endpoint_witness :
  run (main Sample.hmac Sample.decode Sample.str Sample.down ∅
         (Sample.request "issues"))
  = (inl (ClientError "Cannot connect to host"),
     [Entered "issue_opened_event";
      Post Sample.gh (JStr "https://api.example/issues/1/comments")
        (JObj {[ "body" :=
                   JStr "Thanks for the report @alice! I will look into it ASAP! (I'm a bot)." ]})]).
Proof.
  exact (post_failure_reaches_endpoint Sample.hmac Sample.decode Sample.str
           Sample.down ∅ (Sample.request "issues") (Sample.ev "issues")
           (JStr "https://api.example/issues/1/comments") (JStr "alice")
           (ClientError "Cannot connect to host")
           eq_refl eq_refl eq_refl eq_refl eq_refl).
Defined.

(** X5: the scenario of alice, read backwards from its POST. *)
Lemma main_posts_only_for_registered_event_witness :
  exists ev : Event,
    from_http Sample.hmac Sample.decode (headers (Sample.request "issues"))
      (body (Sample.request "issues"))
      ((∅ : gmap string string) !! "GH_SECRET") = inr ev /\
    handled ev = true /\
    is_Some (path (data ev) ["issue"; "comments_url"]) /\
    is_Some (path (data ev) ["issue"; "user"; "login"]).
Proof.
  apply (main_posts_only_for_registered_event Sample.hmac Sample.decode
           Sample.str Sample.network ∅ (Sample.request "issues")).
  discriminate.
Defined.

(** X9: the user of the issue is [null]. *)
Lemma handler_rejects_non_mapping_witness :
  exists msg,
    run (issue_opened_event Sample.str Sample.network Sample.ghost Sample.gh)
    = (inl (TypeError msg), []).
Proof.
  refine (proj2 (handler_rejects_non_mapping Sample.str Sample.network
                   Sample.ghost Sample.gh
                   {[ "action" := JStr "opened";
                      "issue" :=
                        JObj {[ "comments_url" := JStr "https://api.example/issues/1/comments";
                                "user" := JNull ]} ]}
                   eq_refl)
            {[ "comments_url" := JStr "https://api.example/issues/1/comments";
               "user" := JNull ]}
            JNull eq_refl _ eq_refl _).
  - eexists. reflexivity.
  - intros m. discriminate.
Defined.

(** ** The router with more than one registration *)



(** C2 fails on the code: an "issues" delivery whose payload is
    [{"action": []}] has no registered handler, yet [dispatch] raises on
    it, whatever the library primitives are, and the endpoint returns no
    response. *)
Lemma unhandled_issues_event_raises :
  handled Sample.listed = false /\
  (forall (py_str : json -> string)
          (network : GitHubAPI -> json -> json -> option exn)
          (git : GitHubAPI),
      run (dispatch (router py_str network) Sample.listed git)
      = (inl (TypeError "unhashable type: 'list'"), [])) /\
  run (main Sample.hmac Sample.decode_listed Sample.str Sample.network ∅
         (mkRequest (Sample.hdrs "issues") Sample.listed_body))
  = (inl (TypeError "unhashable type: 'list'"), []).
Proof.
  split; [|split].
  - reflexivity.
  - intros py_str network git. reflexivity.
  - reflexivity.
Qed.
